(** * A shallow embedding of the federated sum script, the server entrypoint
    and the CIFAR-100 prediction preprocessing of FancyXun/federated.

    The repository snapshot contains [test_tff.py], [simulation/server.py]
    and [cifar100_prediction_test.py]; the executor stack and the
    preprocessing module they call are modelled from the spec where noted. *)

From Stdlib Require Import String ZArith List Lia Permutation Bool Arith.
From Stdlib Require Import Reals Lra QArith Qround.
Import ListNotations.
Open Scope Z_scope.

(** ** Errors and results *)

(** The error taxonomy of the spec (section 7), plus Python's [ValueError]
    and [TypeError] raised by argument validation. *)
Inductive error :=
  | InvalidCardinalityError (placement : string)
  | CardinalityMismatchError (expected actual : nat)
  | ValueError (msg : string)
  | TypeError (msg : string).

Inductive result (A : Type) :=
  | Ok (a : A)
  | Err (e : error).
Arguments Ok {A} a.
Arguments Err {A} e.

Definition bind {A B} (r : result A) (k : A -> result B) : result B :=
  match r with
  | Ok a => k a
  | Err e => Err e
  end.

Notation "x <- r ;; k" := (bind r (fun x => k))
  (at level 61, r at next level, right associativity).

(** [contains needle hay]: the Python test [needle in hay]. *)
Fixpoint contains (needle hay : string) : bool :=
  if String.prefix needle hay then true
  else match hay with
       | EmptyString => false
       | String _ rest => contains needle rest
       end.

(** ** int32 arithmetic *)

Definition wrap32 (z : Z) : Z := (z + 2 ^ 31) mod 2 ^ 32 - 2 ^ 31.

Definition add32 (a b : Z) : Z := wrap32 (a + b).

(** ** Federated values and placement resolution *)

(** A cardinality map: placement name to number of participants. *)
Definition cardinalities := list (string * nat).

Fixpoint card_lookup (p : string) (cs : cardinalities) : option nat :=
  match cs with
  | [] => None
  | (q, n) :: rest => if String.eqb p q then Some n else card_lookup p rest
  end.

(** A federated value: placement, all-equal flag and the payloads sent. *)
Record fed_value := FedValue {
  fv_placement : string;
  fv_all_equal : bool;
  fv_payload : list Z
}.

(** Modelled from the spec: the Placement Resolver of section 4.2 (the
    executor stack is not part of the snapshot).  An unknown placement fails
    with [InvalidCardinalityError]; an all-equal value carries one payload that
    is broadcast to the N leaves; a non-all-equal value must carry exactly N
    payloads, otherwise [CardinalityMismatchError expected actual]. *)
Definition resolve (cs : cardinalities) (v : fed_value) : result (list Z) :=
  match card_lookup (fv_placement v) cs with
  | None => Err (InvalidCardinalityError (fv_placement v))
  | Some n =>
      if fv_all_equal v then
        match fv_payload v with
        | [x] => Ok (repeat x n)
        | ps => Err (CardinalityMismatchError 1 (length ps))
        end
      else if Nat.eqb (length (fv_payload v)) n then Ok (fv_payload v)
      else Err (CardinalityMismatchError n (length (fv_payload v)))
  end.

(** Modelled from the spec: [tff.federated_sum] joins the int32 leaf results
    with int32 addition, starting from the additive identity 0. *)
Definition federated_sum (leaves : list Z) : Z := fold_left add32 leaves 0.

(** Execution of a computation whose parameter is placed at clients: resolve
    the argument against the cardinalities, then aggregate. *)
Definition execute (cs : cardinalities) (v : fed_value) : result Z :=
  leaves <- resolve cs v ;; Ok (federated_sum leaves).

(** Modelled from the spec: a call of a federated computation on a Python list
    of client values runs with the effective client count of that list (the
    "N=0-effective" path for [[]]). *)
Definition infer_cardinalities (v : fed_value) : cardinalities :=
  [(fv_placement v, length (fv_payload v))].

(** [test_tff.py]: [fed_sum] of type [{int32}@CLIENTS -> int32@SERVER]. *)
Definition fed_sum (x : list Z) : result Z :=
  let v := {| fv_placement := "clients"; fv_all_equal := false;
              fv_payload := x |} in
  execute (infer_cardinalities v) v.

(** ** Orders of joining leaf results *)

(** A join plan: in which order and association the aggregation step joins
    the leaf results; [JZero] is the additive identity, [JLeaf i] the result
    of leaf [i]. *)
Inductive join_plan :=
  | JZero
  | JLeaf (i : nat)
  | JJoin (l r : join_plan).

Fixpoint run_plan (leaves : list Z) (t : join_plan) : Z :=
  match t with
  | JZero => 0
  | JLeaf i => nth i leaves 0
  | JJoin l r => add32 (run_plan leaves l) (run_plan leaves r)
  end.

Fixpoint plan_leaves (t : join_plan) : list nat :=
  match t with
  | JZero => []
  | JLeaf i => [i]
  | JJoin l r => plan_leaves l ++ plan_leaves r
  end.

(** A plan for N leaves joins every leaf exactly once. *)
Definition plan_for (n : nat) (t : join_plan) : Prop :=
  Permutation (plan_leaves t) (seq 0 n).

(** ** Executor factory with reference-counted executors *)

(** Modelled from the spec: the Executor Factory of section 4.1
    ([create_executor], [release_executor]) with its reuse policy.  Releasing
    a handle that is no longer held is a no-op (the spec leaves the choice
    open). *)
Module ExecutorFactory.

Inductive policy := Reuse | NoReuse.

Record entry := Entry {
  e_cards : cardinalities;
  e_exec : nat;
  e_refs : nat
}.

Record handle := Handle {
  h_id : nat;
  h_exec : nat
}.

Record factory := Factory {
  f_policy : policy;
  f_cache : list entry;
  f_handles : list handle;
  f_next_exec : nat;
  f_next_handle : nat;
  f_torn_down : list nat
}.

Definition init (p : policy) : factory := Factory p [] [] 0 0 [].

Fixpoint cards_eqb (a b : cardinalities) : bool :=
  match a, b with
  | [], [] => true
  | (p, n) :: a', (q, m) :: b' =>
      String.eqb p q && Nat.eqb n m && cards_eqb a' b'
  | _, _ => false
  end.

Definition handle_eqb (a b : handle) : bool :=
  Nat.eqb (h_id a) (h_id b) && Nat.eqb (h_exec a) (h_exec b).

Fixpoint find_cached (cs : cardinalities) (c : list entry) : option entry :=
  match c with
  | [] => None
  | e :: rest => if cards_eqb (e_cards e) cs then Some e else find_cached cs rest
  end.

Definition bump (x : nat) (c : list entry) : list entry :=
  map (fun e => if Nat.eqb (e_exec e) x
                then Entry (e_cards e) (e_exec e) (S (e_refs e)) else e) c.

Definition drop_ref (x : nat) (c : list entry) : list entry :=
  map (fun e => if Nat.eqb (e_exec e) x
                then Entry (e_cards e) (e_exec e) (pred (e_refs e)) else e) c.

Definition refs_of (x : nat) (c : list entry) : nat :=
  match find (fun e => Nat.eqb (e_exec e) x) c with
  | Some e => e_refs e
  | None => 0
  end.

Definition create_executor (f : factory) (cs : cardinalities)
    : factory * handle :=
  let cached :=
    match f_policy f with
    | Reuse => find_cached cs (f_cache f)
    | NoReuse => None
    end in
  match cached with
  | Some e =>
      let h := Handle (f_next_handle f) (e_exec e) in
      (Factory (f_policy f) (bump (e_exec e) (f_cache f)) (h :: f_handles f)
         (f_next_exec f) (S (f_next_handle f)) (f_torn_down f), h)
  | None =>
      let x := f_next_exec f in
      let h := Handle (f_next_handle f) x in
      (Factory (f_policy f) (f_cache f ++ [Entry cs x 1]) (h :: f_handles f)
         (S x) (S (f_next_handle f)) (f_torn_down f), h)
  end.

Definition release_executor (f : factory) (h : handle) : factory :=
  if existsb (handle_eqb h) (f_handles f) then
    let handles := filter (fun h' => negb (handle_eqb h h')) (f_handles f) in
    let cache := drop_ref (h_exec h) (f_cache f) in
    if Nat.eqb (refs_of (h_exec h) cache) 0 then
      Factory (f_policy f)
        (filter (fun e => negb (Nat.eqb (e_exec e) (h_exec h))) cache)
        handles (f_next_exec f) (f_next_handle f)
        (f_torn_down f ++ [h_exec h])
    else
      Factory (f_policy f) cache handles (f_next_exec f) (f_next_handle f)
        (f_torn_down f)
  else f.

(** The executor is live (cached and not torn down). *)
Definition is_live (f : factory) (x : nat) : bool :=
  existsb (fun e => Nat.eqb (e_exec e) x) (f_cache f).

Definition teardowns (f : factory) (x : nat) : nat :=
  count_occ Nat.eq_dec (f_torn_down f) x.

End ExecutorFactory.

(** ** The server entrypoint ([simulation/server.py]) *)

(** Arguments of [python_executor_stacks.local_executor_factory]. *)
Record executor_factory_config := LocalExecutorFactory {
  default_num_clients : nat
}.

(** A call [server_utils.run_server(factory, num_threads, port,
    server_credentials, server_options)]; Python's [None] is [None]. *)
Record run_server_call := RunServer {
  rs_factory : executor_factory_config;
  rs_num_threads : Z;
  rs_port : Z;
  rs_credentials : option string;
  rs_options : option (list (string * string))
}.

Definition local_executor_factory (n : nat) : executor_factory_config :=
  LocalExecutorFactory n.

(** [main(argv)]: the commented-out stack construction is dead code; the
    function builds the local factory and runs the server, never reading
    [argv]. *)
Definition main (argv : list string) : run_server_call :=
  let factory := local_executor_factory 3 in
  RunServer factory 10 30000 None None.

Inductive channel := Insecure | Secure.

(** Modelled from the spec (section 6): [server_credentials=None] gives an
    insecure channel. *)
Definition channel_of (c : run_server_call) : channel :=
  match rs_credentials c with
  | None => Insecure
  | Some _ => Secure
  end.

(** ** CIFAR-100 prediction preprocessing *)

(** An image tensor of shape (height, width, channels), as float values. *)
Definition tensor3 := list (list (list R)).

(** An element of the CIFAR-100 client datasets ([TEST_DATA]). *)
Record example := Example {
  coarse_label : Z;
  image : tensor3;
  label : Z
}.

(** The [crop_shape] argument: a Python int, [None], or a tuple/list of ints
    (the iterable case). *)
Inductive crop_arg :=
  | CropInt (z : Z)
  | CropNone
  | CropSeq (dims : list Z).

(** [isinstance(crop_shape, collections.abc.Iterable)]. *)
Definition crop_is_iterable (c : crop_arg) : bool :=
  match c with
  | CropSeq _ => true
  | _ => false
  end.

Definition map3 (f : R -> R) (t : tensor3) : tensor3 :=
  map (map (map f)) t.

Definition values (t : tensor3) : list R := concat (concat t).

Definition sumR (l : list R) : R := fold_right Rplus 0%R l.

Definition mean (t : tensor3) : R :=
  (sumR (values t) / INR (length (values t)))%R.

Definition variance (t : tensor3) : R :=
  let m := mean t in
  (sumR (map (fun x => (x - m) * (x - m)) (values t))
     / INR (length (values t)))%R.

(** Modelled from the spec: the image is normalised to zero mean and unit
    variance. *)
Definition standardize (t : tensor3) : tensor3 :=
  let m := mean t in
  let sd := sqrt (variance t) in
  map3 (fun x => ((x - m) / sd)%R) t.

(** Centre crop or zero pad of one axis to [n] entries. *)
Definition crop_or_pad_axis {T} (pad : T) (n : nat) (xs : list T) : list T :=
  let len := length xs in
  if Nat.leb n len then firstn n (skipn ((len - n) / 2) xs)
  else repeat pad ((n - len) / 2) ++ xs
         ++ repeat pad (n - len - (n - len) / 2).

Definition channels (t : tensor3) : nat :=
  match t with
  | (p :: _) :: _ => length p
  | _ => 0
  end.

(** Modelled from the spec: cropping without distortion, the centre crop (or
    pad) of height and width. *)
Definition resize_with_crop_or_pad (t : tensor3) (th tw : nat) : tensor3 :=
  let zero_pixel := repeat 0%R (channels t) in
  crop_or_pad_axis (repeat zero_pixel tw) th
    (map (crop_or_pad_axis zero_pixel tw) t).

(** Modelled from the spec: distortion, a crop of the full crop shape at a
    drawn offset followed by a drawn horizontal flip. *)
Definition random_crop_flip (t : tensor3) (th tw tc : nat)
    (draw : nat * nat * bool) : tensor3 :=
  let '(oy, ox, flip) := draw in
  let rows := firstn th (skipn oy t) in
  let cropped := map (fun r => map (firstn tc) (firstn tw (skipn ox r))) rows in
  if flip then map (@rev (list R)) cropped else cropped.

Section Preprocessing.

(** The random choices of the distortion ([draw]) and the order a shuffle
    buffer of a given size produces in a given epoch ([shuffle]). *)
Variable draw : tensor3 -> nat * nat * bool.
Variable shuffle : nat -> nat -> list example -> list example.

(** [build_image_map(crop_shape, distort)]: the map from an example to the
    pair (image, label); the coarse label is dropped. *)
Definition build_image_map (crop : nat * nat * nat) (distort : bool)
    (ex : example) : tensor3 * Z :=
  let '(th, tw, tc) := crop in
  let img := image ex in
  let cropped :=
    if distort then random_crop_flip img th tw tc (draw img)
    else resize_with_crop_or_pad img th tw in
  (standardize cropped, label ex).

(** [dataset.batch(batch_size)]: consecutive groups of [batch_size], the last
    one possibly smaller. *)
Fixpoint batch_go {A} (bs fuel : nat) (l : list A) : list (list A) :=
  match fuel with
  | O => []
  | S fuel' =>
      match l with
      | [] => []
      | _ => firstn bs l :: batch_go bs fuel' (skipn bs l)
      end
  end.

Definition batch {A} (bs : nat) (l : list A) : list (list A) :=
  batch_go bs (length l) l.

(** [dataset.shuffle(buffer).repeat(num_epochs)]: one pass over the shuffled
    dataset per epoch. *)
Definition repeat_epochs (buf epochs : nat) (ds : list example)
    : list example :=
  flat_map (fun e => shuffle buf e ds) (seq 0 epochs).

Definition msg_epochs : string := "num_epochs must be a positive integer.".
Definition msg_crop_iterable : string :=
  "Argument crop_shape must be an iterable.".
Definition msg_crop_length : string :=
  "The crop_shape must have length 3, corresponding to a tensor of shape [height, width, channels].".

Definition CIFAR_SHAPE : crop_arg := CropSeq [32; 32; 3].

(** Modelled from the spec: [create_preprocess_fn(num_epochs, batch_size,
    shuffle_buffer_size, crop_shape, distort_image)].  Arguments are checked
    when the function is created, [num_epochs] first; the returned function
    shuffles, repeats for [num_epochs] epochs, maps [build_image_map] and
    batches. *)
Definition create_preprocess_fn (num_epochs batch_size shuffle_buffer_size : Z)
    (crop_shape : crop_arg) (distort_image : bool)
    : result (list example -> list (list (tensor3 * Z))) :=
  if num_epochs <? 1 then Err (ValueError msg_epochs)
  else
    let buf := if shuffle_buffer_size <=? 1 then 1%nat
               else Z.to_nat shuffle_buffer_size in
    match crop_shape with
    | CropSeq [h; w; c] =>
        let image_map :=
          build_image_map (Z.to_nat h, Z.to_nat w, Z.to_nat c) distort_image in
        Ok (fun ds =>
              batch (Z.to_nat batch_size)
                (map image_map (repeat_epochs buf (Z.to_nat num_epochs) ds)))
    | CropSeq _ => Err (ValueError msg_crop_length)
    | _ => Err (TypeError msg_crop_iterable)
    end.

End Preprocessing.

(** ** Auxiliary definitions for the properties *)

Definition clients_value (xs : list Z) : fed_value :=
  {| fv_placement := "clients"; fv_all_equal := false; fv_payload := xs |}.

Definition is_int32 (z : Z) : Prop := - 2 ^ 31 <= z < 2 ^ 31.

Definition sumZ (l : list Z) : Z := fold_right Z.add 0 l.

(** A draw that never crops off-centre or flips, and a shuffle buffer that
    keeps the order. *)
Definition no_draw (_ : tensor3) : nat * nat * bool := (0%nat, 0%nat, false).
Definition keep_order (_ _ : nat) (ds : list example) : list example := ds.

Definition blank_example : example := Example 1 [] 1.

(** The two-example dataset used to show that the batch count depends on
    the dataset size. *)
Definition two_examples : list example := [blank_example; blank_example].

(** The tensor has shape (h, w, c). *)
Definition has_shape (t : tensor3) (h w c : nat) : Prop :=
  length t = h /\ Forall (fun row => length row = w) t /\
  Forall (Forall (fun px => length px = c)) t.

(** A single pixel with two channels, 1 and -1: mean 0, variance 1. *)
Definition unit_pixel : tensor3 := [[[1%R; (-1)%R]]].

(** ** The preprocessing tests ([cifar100_prediction_test.py]) *)







(** [test_preprocess_is_no_op_for_normalized_image]:
    [x = tf.constant([[[1.0, -1.0, 0.0]]])], then [x = x / reduce_std(x)]. *)
Definition noop_test_raw : tensor3 := [[[1%R; (-1)%R; 0%R]]].



(** * Properties *)

(** ** Federated sum *)

Example fed_sum_123 : fed_sum [1; 2; 3] = Ok 6.
Proof. reflexivity. Qed.

Example fed_sum_overflow : fed_sum [2147483647; 1] = Ok (-2147483648).
Proof. reflexivity. Qed.

Lemma wrap32_congr (a b : Z) :
  a mod 2 ^ 32 = b mod 2 ^ 32 -> wrap32 a = wrap32 b.
Proof.
  intros H. unfold wrap32. f_equal.
  rewrite Zplus_mod, H, <- Zplus_mod. reflexivity.
Qed.

Lemma wrap32_mod (z : Z) : wrap32 z mod 2 ^ 32 = z mod 2 ^ 32.
Proof.
  unfold wrap32.
  replace ((z + 2 ^ 31) mod 2 ^ 32 - 2 ^ 31)
    with ((z + 2 ^ 31) mod 2 ^ 32 + (- 2 ^ 31)) by lia.
  rewrite Zplus_mod, Zmod_mod, <- Zplus_mod. f_equal. lia.
Qed.

Lemma wrap32_id (z : Z) : is_int32 z -> wrap32 z = z.
Proof.
  unfold is_int32, wrap32. intros H.
  rewrite Z.mod_small by lia. lia.
Qed.

Lemma add32_wrap (a b : Z) : add32 (wrap32 a) (wrap32 b) = wrap32 (a + b).
Proof.
  unfold add32. apply wrap32_congr.
  rewrite Zplus_mod, !wrap32_mod, <- Zplus_mod. reflexivity.
Qed.

Lemma fold_add32_wrap (l : list Z) (acc : Z) :
  fold_left add32 l (wrap32 acc) = wrap32 (acc + sumZ l).
Proof.
  revert acc. induction l as [|x l IH]; intros acc; simpl.
  - f_equal. lia.
  - replace (add32 (wrap32 acc) x) with (wrap32 (acc + x)).
    + rewrite IH. f_equal. lia.
    + unfold add32. apply wrap32_congr.
      rewrite (Zplus_mod (wrap32 acc)), wrap32_mod, <- Zplus_mod.
      reflexivity.
Qed.

Lemma federated_sum_wrap (l : list Z) : federated_sum l = wrap32 (sumZ l).
Proof.
  unfold federated_sum. change 0 with (wrap32 0) at 1.
  rewrite fold_add32_wrap. reflexivity.
Qed.

Lemma sumZ_app (l1 l2 : list Z) : sumZ (l1 ++ l2) = sumZ l1 + sumZ l2.
Proof. induction l1; simpl; lia. Qed.

Lemma sumZ_perm (l1 l2 : list Z) : Permutation l1 l2 -> sumZ l1 = sumZ l2.
Proof. induction 1; simpl; lia. Qed.

Lemma run_plan_wrap (leaves : list Z) (t : join_plan) :
  Forall is_int32 leaves ->
  run_plan leaves t
  = wrap32 (sumZ (map (fun i => nth i leaves 0) (plan_leaves t))).
Proof.
  intros Hl. induction t as [| i | l IHl r IHr]; simpl.
  - reflexivity.
  - rewrite Z.add_0_r, wrap32_id; [reflexivity|].
    destruct (Nat.lt_ge_cases i (length leaves)) as [Hi|Hi].
    + rewrite Forall_forall in Hl. apply Hl, nth_In, Hi.
    + rewrite nth_overflow by exact Hi. unfold is_int32. lia.
  - rewrite IHl, IHr, add32_wrap, map_app, sumZ_app. reflexivity.
Qed.

Lemma map_nth_seq_app (l xs : list Z) :
  map (fun i => nth i (xs ++ l) 0) (seq (length xs) (length l)) = l.
Proof.
  revert xs. induction l as [|a l IH]; intros xs; simpl; [reflexivity|].
  rewrite app_nth2 by lia. rewrite Nat.sub_diag. simpl. f_equal.
  specialize (IH (xs ++ [a])).
  rewrite <- app_assoc, length_app in IH. simpl in IH.
  rewrite Nat.add_1_r in IH. exact IH.
Qed.

Lemma map_nth_seq0 (l : list Z) :
  map (fun i => nth i l 0) (seq 0 (length l)) = l.
Proof. exact (map_nth_seq_app l []). Qed.

(** C1: calling [fed_sum] on the empty list of client values does not fail
    and returns 0, the additive identity. *)
Theorem fed_sum_empty : fed_sum [] = Ok 0.
Proof. reflexivity. Qed.

(** C7: for a non-all-equal value at clients with declared cardinality N,
    execution succeeds only when the payload list has exactly N entries; any
    other length fails with [CardinalityMismatchError N actual]. *)
Theorem execute_cardinality_mismatch (cs : cardinalities) (n : nat)
    (xs : list Z) :
  card_lookup "clients" cs = Some n ->
  (forall r, execute cs (clients_value xs) = Ok r -> length xs = n) /\
  (length xs <> n ->
   execute cs (clients_value xs) = Err (CardinalityMismatchError n (length xs))).
Proof.
  intros Hc. unfold execute, resolve. simpl. rewrite Hc. split.
  - intros r. destruct (Nat.eqb_spec (length xs) n); [auto | discriminate].
  - intros Hne. apply Nat.eqb_neq in Hne. rewrite Hne. reflexivity.
Qed.

Lemma execute_cardinality_mismatch_witness :
  card_lookup "clients" [("clients"%string, 3%nat)] = Some 3%nat /\
  execute [("clients"%string, 3%nat)] (clients_value [])
  = Err (CardinalityMismatchError 3 0).
Proof.
  split; [reflexivity|].
  apply (execute_cardinality_mismatch [("clients"%string, 3%nat)] 3 []);
    [reflexivity | simpl; lia].
Defined.

(** C8: for N int32 values placed at clients, every plan that joins each
    leaf result once yields the federated sum, and for N = 0 the result is
    the additive identity 0. *)
Theorem federated_sum_join_order (xs : list Z) (t : join_plan) :
  Forall is_int32 xs -> plan_for (length xs) t ->
  execute [("clients"%string, length xs)] (clients_value xs) = Ok (run_plan xs t) /\
  execute [("clients"%string, 0%nat)] (clients_value []) = Ok 0.
Proof.
  intros Hr Hp. split; [|reflexivity].
  unfold execute, resolve. simpl. rewrite Nat.eqb_refl. simpl. f_equal.
  rewrite run_plan_wrap by exact Hr. rewrite federated_sum_wrap. f_equal.
  unfold plan_for in Hp.
  rewrite (sumZ_perm _ _ (Permutation_map (fun i => nth i xs 0) Hp)).
  rewrite map_nth_seq0. reflexivity.
Qed.

Lemma federated_sum_join_order_witness :
  Forall is_int32 [5; 7; 9] /\ plan_for 3 (JJoin (JLeaf 2) (JJoin (JLeaf 0) (JLeaf 1))) /\
  execute [("clients"%string, 3%nat)] (clients_value [5; 7; 9])
  = Ok (run_plan [5; 7; 9] (JJoin (JLeaf 2) (JJoin (JLeaf 0) (JLeaf 1)))).
Proof.
  assert (Hr : Forall is_int32 [5; 7; 9])
    by (repeat constructor; unfold is_int32; lia).
  assert (Hp : plan_for 3 (JJoin (JLeaf 2) (JJoin (JLeaf 0) (JLeaf 1)))).
  { unfold plan_for; simpl.
    apply (Permutation_cons_append [0; 1]%nat 2%nat). }
  split; [exact Hr|]. split; [exact Hp|].
  exact (proj1 (federated_sum_join_order [5; 7; 9] _ Hr Hp)).
Defined.

(** ** Executor factory *)

Section FactoryProps.
Import ExecutorFactory.

Lemma cards_eqb_refl (cs : cardinalities) : cards_eqb cs cs = true.
Proof.
  induction cs as [|[p n] cs IH]; simpl; [reflexivity|].
  rewrite String.eqb_refl, Nat.eqb_refl, IH. reflexivity.
Qed.

Example create_reuse_clients3 :
  let cs := [("clients"%string, 3%nat)] in
  let '(f1, h1) := create_executor (init Reuse) cs in
  let '(f2, h2) := create_executor f1 cs in
  h_exec h1 = h_exec h2 /\ refs_of (h_exec h1) (f_cache f2) = 2%nat.
Proof. split; reflexivity. Qed.

Example create_no_reuse_clients3 :
  let cs := [("clients"%string, 3%nat)] in
  let '(f1, h1) := create_executor (init NoReuse) cs in
  let '(f2, h2) := create_executor f1 cs in
  h_exec h1 <> h_exec h2.
Proof. simpl. discriminate. Qed.

(** C9: under the reuse policy two [create_executor] calls with the same
    cardinality map (in particular [{clients: 3}]) give two handles on one
    executor; releasing either handle first leaves the executor live and not
    torn down; releasing both tears it down exactly once, and releasing
    either handle again does not tear it down a second time. *)
Theorem reuse_refcount_teardown (cs : cardinalities) :
  let '(f1, h1) := create_executor (init Reuse) cs in
  let '(f2, h2) := create_executor f1 cs in
  let x := h_exec h1 in
  h_exec h2 = x /\ h1 <> h2 /\
  (let f3 := release_executor f2 h1 in
   is_live f3 x = true /\ teardowns f3 x = 0%nat /\
   let f4 := release_executor f3 h2 in
   is_live f4 x = false /\ teardowns f4 x = 1%nat /\
   teardowns (release_executor (release_executor f4 h1) h2) x = 1%nat) /\
  (let f3 := release_executor f2 h2 in
   is_live f3 x = true /\ teardowns f3 x = 0%nat /\
   let f4 := release_executor f3 h1 in
   is_live f4 x = false /\ teardowns f4 x = 1%nat /\
   teardowns (release_executor (release_executor f4 h1) h2) x = 1%nat).
Proof.
  cbn. unfold create_executor; cbn. rewrite cards_eqb_refl. cbn.
  split; [reflexivity|]. split; [discriminate|].
  split; repeat split; reflexivity.
Qed.

End FactoryProps.

(** ** Server entrypoint *)

(** C6: whatever the command line, [main] starts the server with a local
    executor factory for 3 default clients, 10 threads, port 30000, no
    credentials and no options, hence on an insecure channel. *)
Theorem main_fixed_configuration (argv : list string) :
  main argv = RunServer (LocalExecutorFactory 3) 10 30000 None None /\
  channel_of (main argv) = Insecure /\
  main argv = main [].
Proof. repeat split. Qed.

(** ** Preprocessing *)

Example contains_epochs : contains "positive integer" msg_epochs = true.
Proof. reflexivity. Qed.

Example create_rejects_2d_crop :
  create_preprocess_fn no_draw keep_order 1 1 1 (CropSeq [32; 32]) false
  = Err (ValueError msg_crop_length).
Proof. reflexivity. Qed.

(** C3: a non-positive [num_epochs] makes [create_preprocess_fn] fail at
    once with a [ValueError] mentioning "positive integer"; no dataset
    function is returned. *)
Theorem create_rejects_nonpositive_epochs
    (draw : tensor3 -> nat * nat * bool)
    (shuffle : nat -> nat -> list example -> list example)
    (num_epochs batch_size shuffle_buffer_size : Z) (crop_shape : crop_arg)
    (distort_image : bool) :
  num_epochs <= 0 ->
  exists msg,
    create_preprocess_fn draw shuffle num_epochs batch_size shuffle_buffer_size
      crop_shape distort_image = Err (ValueError msg) /\
    contains "positive integer" msg = true.
Proof.
  intros Hn. exists msg_epochs. split; [|reflexivity].
  unfold create_preprocess_fn.
  replace (num_epochs <? 1) with true by (symmetry; apply Z.ltb_lt; lia).
  reflexivity.
Qed.

Lemma create_rejects_nonpositive_epochs_witness :
  -2 <= 0 /\
  exists msg,
    create_preprocess_fn no_draw keep_order (-2) 1 1 CIFAR_SHAPE false
    = Err (ValueError msg) /\ contains "positive integer" msg = true.
Proof.
  split; [lia|].
  apply (create_rejects_nonpositive_epochs no_draw keep_order (-2) 1 1
           CIFAR_SHAPE false). lia.
Defined.

(** C4: with a valid [num_epochs], a [crop_shape] that is not iterable
    fails with a [TypeError] mentioning "crop_shape must be an iterable",
    and an iterable of length other than 3 fails with a [ValueError]
    mentioning "The crop_shape must have length 3". *)
Theorem create_rejects_bad_crop_shape
    (draw : tensor3 -> nat * nat * bool)
    (shuffle : nat -> nat -> list example -> list example)
    (num_epochs batch_size shuffle_buffer_size : Z) (distort_image : bool) :
  1 <= num_epochs ->
  (forall crop_shape, crop_is_iterable crop_shape = false ->
   exists msg,
     create_preprocess_fn draw shuffle num_epochs batch_size
       shuffle_buffer_size crop_shape distort_image = Err (TypeError msg) /\
     contains "crop_shape must be an iterable" msg = true) /\
  (forall dims, length dims <> 3%nat ->
   exists msg,
     create_preprocess_fn draw shuffle num_epochs batch_size
       shuffle_buffer_size (CropSeq dims) distort_image
     = Err (ValueError msg) /\
     contains "The crop_shape must have length 3" msg = true).
Proof.
  intros Hn. unfold create_preprocess_fn.
  replace (num_epochs <? 1) with false by (symmetry; apply Z.ltb_ge; lia).
  split.
  - intros [z| |dims] Hc; try discriminate; exists msg_crop_iterable;
      split; reflexivity.
  - intros dims Hd. exists msg_crop_length. split; [|reflexivity].
    destruct dims as [|a [|b [|c [|d rest]]]]; try reflexivity.
    simpl in Hd. lia.
Qed.

Lemma create_rejects_bad_crop_shape_witness :
  1 <= 1 /\
  (exists msg,
     create_preprocess_fn no_draw keep_order 1 1 1 (CropInt 32) false
     = Err (TypeError msg) /\
     contains "crop_shape must be an iterable" msg = true) /\
  (exists msg,
     create_preprocess_fn no_draw keep_order 1 1 1 (CropSeq [32; 32]) false
     = Err (ValueError msg) /\
     contains "The crop_shape must have length 3" msg = true).
Proof.
  assert (H := create_rejects_bad_crop_shape no_draw keep_order 1 1 1 false
                 ltac:(lia)).
  split; [lia|]. split.
  - apply (proj1 H). reflexivity.
  - apply (proj2 H). simpl. lia.
Defined.


(** ** Number of batches *)

Lemma batch_go_length {A} (bs fuel : nat) (l : list A) :
  (0 < bs)%nat -> (length l <= fuel)%nat ->
  length (batch_go bs fuel l) = ((length l + bs - 1) / bs)%nat.
Proof.
  intros Hbs. revert l. induction fuel as [|fuel IH]; intros l Hl.
  - destruct l; simpl in *; [|lia].
    rewrite Nat.div_small; lia.
  - destruct l as [|a l'].
    + simpl. rewrite Nat.div_small; lia.
    + cbn [batch_go]. set (l := a :: l') in *.
      assert (Hlen : (1 <= length l)%nat) by (simpl; lia).
      change (length (firstn bs l :: batch_go bs fuel (skipn bs l)))
        with (S (length (batch_go bs fuel (skipn bs l)))).
      rewrite IH by (rewrite length_skipn; lia).
      rewrite length_skipn.
      replace (length l + bs - 1)%nat with ((length l - 1) + 1 * bs)%nat
        by lia.
      rewrite Nat.div_add by lia.
      destruct (Nat.le_gt_cases bs (length l)) as [Hle|Hgt].
      * replace (length l - bs + bs - 1)%nat with (length l - 1)%nat by lia.
        lia.
      * rewrite (Nat.div_small (length l - bs + bs - 1)) by lia.
        rewrite (Nat.div_small (length l - 1)) by lia. lia.
Qed.

Lemma batch_length {A} (bs : nat) (l : list A) :
  (0 < bs)%nat -> length (batch bs l) = ((length l + bs - 1) / bs)%nat.
Proof. intros H. apply batch_go_length; lia. Qed.

Lemma repeat_epochs_length
    (shuffle : nat -> nat -> list example -> list example)
    (buf epochs : nat) (ds : list example) :
  (forall b e l, length (shuffle b e l) = length l) ->
  length (repeat_epochs shuffle buf epochs ds) = (epochs * length ds)%nat.
Proof.
  intros Hs. unfold repeat_epochs. generalize 0%nat as start.
  induction epochs as [|k IH]; intros start; simpl; [reflexivity|].
  rewrite length_app, Hs, IH. reflexivity.
Qed.

Lemma preprocess_length
    (draw : tensor3 -> nat * nat * bool)
    (shuffle : nat -> nat -> list example -> list example)
    (num_epochs batch_size shuffle_buffer_size : Z) (crop_shape : crop_arg)
    (distort_image : bool) f (ds : list example) :
  (forall b e l, length (shuffle b e l) = length l) ->
  0 < batch_size ->
  create_preprocess_fn draw shuffle num_epochs batch_size shuffle_buffer_size
    crop_shape distort_image = Ok f ->
  Z.of_nat (length (f ds))
  = (Z.of_nat (length ds) * num_epochs + batch_size - 1) / batch_size.
Proof.
  intros Hs Hb Hc. unfold create_preprocess_fn in Hc.
  destruct (Z.ltb_spec num_epochs 1) as [Hn|Hn]; [discriminate|].
  destruct crop_shape as [| |[|h [|w [|c [|d rest]]]]]; try discriminate.
  injection Hc as <-.
  rewrite batch_length by lia. rewrite length_map, repeat_epochs_length by exact Hs.
  rewrite Nat2Z.inj_div, Nat2Z.inj_sub, Nat2Z.inj_add, Nat2Z.inj_mul by lia.
  rewrite !Z2Nat.id by lia. f_equal. lia.
Qed.

(** C2 (as stated, refuted): with [num_epochs = 1] and [batch_size = 1], a
    dataset of two examples gives 2 batches, not ceil(1 / 1) = 1. *)
Lemma preprocess_batches_counterexample :
  match create_preprocess_fn no_draw keep_order 1 1 1 CIFAR_SHAPE false with
  | Ok f => length (f two_examples) = 2%nat /\ 2 <> (1 + 1 - 1) / 1
  | Err _ => False
  end.
Proof. split; [reflexivity | discriminate]. Qed.

(** C2 (amended): for positive [num_epochs] and [batch_size], the dataset
    function returned by [create_preprocess_fn] yields
    ceil(|ds| * num_epochs / batch_size) batches, which for a one-example
    dataset (the test's [TEST_DATA]) is ceil(num_epochs / batch_size). *)
Theorem preprocess_batch_count
    (draw : tensor3 -> nat * nat * bool)
    (shuffle : nat -> nat -> list example -> list example)
    (num_epochs batch_size shuffle_buffer_size : Z) (crop_shape : crop_arg)
    (distort_image : bool) f :
  (forall b e l, length (shuffle b e l) = length l) ->
  0 < num_epochs -> 0 < batch_size ->
  create_preprocess_fn draw shuffle num_epochs batch_size shuffle_buffer_size
    crop_shape distort_image = Ok f ->
  (forall ds, Z.of_nat (length (f ds))
     = (Z.of_nat (length ds) * num_epochs + batch_size - 1) / batch_size) /\
  (forall ex, Z.of_nat (length (f [ex]))
     = (num_epochs + batch_size - 1) / batch_size).
Proof.
  intros Hs Hn Hb Hc. split.
  - intros ds. exact (preprocess_length draw shuffle _ _ _ _ _ f ds Hs Hb Hc).
  - intros ex. rewrite (preprocess_length draw shuffle _ _ _ _ _ f [ex] Hs Hb Hc).
    change (Z.of_nat (length [ex])) with 1. rewrite Z.mul_1_l. reflexivity.
Qed.

Lemma preprocess_batch_count_witness :
  (forall b e l, length (keep_order b e l) = length l) /\ 0 < 7 /\ 0 < 2 /\
  Z.of_nat (length (match create_preprocess_fn no_draw keep_order 7 2 1
                            CIFAR_SHAPE false with
                    | Ok f => f [blank_example]
                    | Err _ => []
                    end)) = (7 + 2 - 1) / 2.
Proof.
  assert (Hs : forall b e l, length (keep_order b e l) = length l)
    by reflexivity.
  split; [exact Hs|]. split; [lia|]. split; [lia|].
  destruct (create_preprocess_fn no_draw keep_order 7 2 1 CIFAR_SHAPE false)
    as [f|e] eqn:Hc; [|discriminate].
  exact (proj2 (preprocess_batch_count no_draw keep_order 7 2 1 CIFAR_SHAPE
                  false f Hs ltac:(lia) ltac:(lia) Hc) blank_example).
Defined.

(** ** Preprocessing a normalised image *)

Lemma crop_or_pad_axis_same {T} (pad : T) (xs : list T) :
  crop_or_pad_axis pad (length xs) xs = xs.
Proof.
  unfold crop_or_pad_axis. rewrite Nat.leb_refl, Nat.sub_diag.
  simpl. apply firstn_all.
Qed.

Lemma resize_same_shape (t : tensor3) (h w c : nat) :
  has_shape t h w c -> resize_with_crop_or_pad t h w = t.
Proof.
  intros [Hh [Hw _]]. unfold resize_with_crop_or_pad.
  assert (Hrows : map (crop_or_pad_axis (repeat 0%R (channels t)) w) t = t).
  { rewrite <- map_id. apply map_ext_in. intros row Hin.
    rewrite Forall_forall in Hw. rewrite <- (Hw row Hin).
    apply crop_or_pad_axis_same. }
  rewrite Hrows, <- Hh. apply crop_or_pad_axis_same.
Qed.

Lemma standardize_normalized (t : tensor3) :
  mean t = 0%R -> variance t = 1%R -> standardize t = t.
Proof.
  intros Hm Hv. unfold standardize, map3. rewrite Hm, Hv, sqrt_1.
  rewrite <- map_id. apply map_ext. intros row.
  rewrite <- map_id. apply map_ext. intros px.
  rewrite <- map_id. apply map_ext. intros x.
  unfold Rdiv. rewrite Rinv_1. ring.
Qed.

(** C5: without distortion and with the crop shape equal to the image's
    shape, the image map returns a zero-mean, unit-variance image unchanged
    and keeps its label. *)
Theorem image_map_normalized_noop (draw : tensor3 -> nat * nat * bool)
    (t : tensor3) (h w c : nat) (cl lbl : Z) :
  has_shape t h w c -> mean t = 0%R -> variance t = 1%R ->
  build_image_map draw (h, w, c) false (Example cl t lbl) = (t, lbl).
Proof.
  intros Hs Hm Hv. unfold build_image_map. simpl.
  rewrite (resize_same_shape t h w c Hs).
  rewrite standardize_normalized by assumption. reflexivity.
Qed.

Lemma image_map_normalized_noop_witness :
  has_shape unit_pixel 1 1 2 /\ mean unit_pixel = 0%R /\
  variance unit_pixel = 1%R /\
  build_image_map no_draw (1%nat, 1%nat, 2%nat) false
    (Example 1 unit_pixel 0) = (unit_pixel, 0).
Proof.
  assert (Hs : has_shape unit_pixel 1 1 2) by (repeat constructor).
  assert (Hm : mean unit_pixel = 0%R).
  { unfold mean, values, sumR, unit_pixel. simpl. unfold Rdiv. ring. }
  assert (Hv : variance unit_pixel = 1%R).
  { unfold variance. rewrite Hm. unfold values, sumR, unit_pixel. simpl.
    field. }
  split; [exact Hs|]. split; [exact Hm|]. split; [exact Hv|].
  exact (image_map_normalized_noop no_draw unit_pixel 1 1 2 1 0 Hs Hm Hv).
Defined.

(** * Further properties of the code *)

(** ** [fed_sum] *)

Lemma fed_sum_federated_sum (xs : list Z) : fed_sum xs = Ok (federated_sum xs).
Proof.
  unfold fed_sum, execute, resolve, infer_cardinalities. simpl.
  rewrite Nat.eqb_refl. reflexivity.
Qed.

Lemma wrap32_range (z : Z) : is_int32 (wrap32 z).
Proof.
  unfold is_int32, wrap32.
  pose proof (Z.mod_pos_bound (z + 2 ^ 31) (2 ^ 32) ltac:(lia)). lia.
Qed.

(** [fed_sum] never fails: it returns the sum of the client values wrapped to
    int32 (two's complement overflow), which is always an int32. *)
Theorem fed_sum_wraps (xs : list Z) :
  fed_sum xs = Ok (wrap32 (sumZ xs)) /\ is_int32 (wrap32 (sumZ xs)).
Proof.
  rewrite fed_sum_federated_sum, federated_sum_wrap.
  split; [reflexivity | apply wrap32_range].
Qed.

(** Reordering the client values does not change the result of [fed_sum]. *)
Theorem fed_sum_perm (xs ys : list Z) :
  Permutation xs ys -> fed_sum xs = fed_sum ys.
Proof.
  intros H. rewrite !fed_sum_federated_sum, !federated_sum_wrap.
  rewrite (sumZ_perm _ _ H). reflexivity.
Qed.

Lemma fed_sum_perm_witness :
  Permutation [1; 2; 3] [3; 1; 2] /\ fed_sum [1; 2; 3] = fed_sum [3; 1; 2].
Proof.
  assert (H : Permutation [1; 2; 3] [3; 1; 2])
    by (apply Permutation_sym, (Permutation_cons_append [1; 2] 3)).
  split; [exact H | exact (fed_sum_perm _ _ H)].
Defined.

(** Splitting the clients into two groups: [fed_sum] of the union is the
    int32 sum of the two groups' results. *)
Theorem fed_sum_app (xs ys : list Z) (a b : Z) :
  fed_sum xs = Ok a -> fed_sum ys = Ok b -> fed_sum (xs ++ ys) = Ok (add32 a b).
Proof.
  rewrite !fed_sum_federated_sum, !federated_sum_wrap.
  intros Ha Hb. injection Ha as <-. injection Hb as <-.
  rewrite add32_wrap, sumZ_app. reflexivity.
Qed.

Lemma fed_sum_app_witness :
  fed_sum [2147483647] = Ok 2147483647 /\ fed_sum [1] = Ok 1 /\
  fed_sum ([2147483647] ++ [1]) = Ok (add32 2147483647 1).
Proof.
  assert (Ha : fed_sum [2147483647] = Ok 2147483647) by reflexivity.
  assert (Hb : fed_sum [1] = Ok 1) by reflexivity.
  split; [exact Ha|]. split; [exact Hb|].
  exact (fed_sum_app _ _ _ _ Ha Hb).
Defined.

(** ** [_compute_length_of_dataset] and the batch-count test *)







(** ** The normalised-image test *)

Lemma noop_test_raw_mean : mean noop_test_raw = 0%R.
Proof. unfold mean, values, sumR, noop_test_raw. simpl. unfold Rdiv. ring. Qed.

Lemma noop_test_raw_variance : variance noop_test_raw = (2 / 3)%R.
Proof.
  unfold variance. rewrite noop_test_raw_mean.
  unfold values, sumR, noop_test_raw. simpl. field.
Qed.

(** ** The element test on [TEST_DATA] *)














(** ** Dividing a zero-mean image by its standard deviation *)






